(** * update_cities.py: fetch a CSV of world cities, write a binary plist

    The script is one straight pipeline:

      res = requests.get(URL); res.raise_for_status()
      reader = csv.reader(res.content.decode('utf-8').splitlines())
      next(reader)
      for row in reader: cities.append({city, float(lat), float(long)})
      with OUT_FILE.open('wb') as f: plistlib.dump(cities, f, FMT_BINARY)

    The embedding keeps that shape.  Python exceptions are an error
    monad; the network answer and the file system are explicit; the
    library calls whose bodies are not part of the script (UTF-8 decoding,
    str.splitlines, csv.reader, float, plistlib.dump) are the fields of an
    interface, [Library], over which the script is parametric. *)

From Stdlib Require Import ZArith List Floats Uint63 Ascii.
From Stdlib.Strings Require Import Byte.
From stdpp Require Import gmap strings list.

Open Scope Z_scope.

(** ** Data *)

(** The dict appended to [cities] at lines 22-26: a str and two Python
    floats (binary64). *)
Record CityRecord := mkCity { city : string; lat : float; long : float }.

(** What [requests.get] hands back: the status of the final response and
    its body ([res.content], bytes). *)
Record Response := mkResponse { status_code : Z; content : list byte }.

(** [requests.get] either raises (no connection, timeout, redirect loop,
    redirect to a URL it cannot handle) or returns a response.  What it
    raises is an instance of some subclass of RequestException; a few of
    those, InvalidURL and InvalidSchema among them, derive from ValueError
    as well, which [also_value_error] records. *)
Inductive get_outcome :=
| GetRaises (also_value_error : bool)
| GetReturns (res : Response).

(** The two ways line 20 raises ValueError, and the way [float] does. *)
Inductive malformed :=
| NotEnoughValues (got : nat)
| TooManyValues (got : nat)
| NotAFloat (s : string).

(** The exceptions the script can end with, one constructor per place
    that raises: [requests.get] (line 11), [raise_for_status] (line 12),
    [decode] (line 14), [next] (line 15), the reader (lines 15 and 19),
    the unpacking and [float] (lines 20-25), [open] (line 28).  The
    constructors are distinct values; which [except] clause would catch
    which is [instance_of], below. *)
Inductive exn :=
| RequestException (also_value_error : bool)
| HTTPError (status : Z)
| UnicodeDecodeError
| StopIteration
| CsvError
| ValueError (why : malformed)
| OSError.

(** The exception classes an [except] clause around the script could
    name. *)
Inductive exc_class :=
| ClsOSError
| ClsRequestException
| ClsHTTPError
| ClsValueError
| ClsUnicodeDecodeError
| ClsStopIteration
| ClsCsvError.

(** [isinstance(e, cls)], after Python's and requests' class hierarchy:
    HTTPError derives from RequestException, RequestException from
    IOError, which is OSError; UnicodeDecodeError derives from ValueError;
    csv.Error and StopIteration derive from Exception only. *)
Definition instance_of (e : exn) (cls : exc_class) : bool :=
  match e, cls with
  | RequestException _, (ClsRequestException | ClsOSError) => true
  | RequestException v, ClsValueError => v
  | HTTPError _, (ClsHTTPError | ClsRequestException | ClsOSError) => true
  | UnicodeDecodeError, (ClsUnicodeDecodeError | ClsValueError) => true
  | StopIteration, ClsStopIteration => true
  | CsvError, ClsCsvError => true
  | ValueError _, ClsValueError => true
  | OSError, ClsOSError => true
  | _, _ => false
  end.

(** A [csv.reader] object is an iterator: each [next] yields a row, raises
    csv.Error, or signals exhaustion. *)
Inductive row_iter :=
| Done
| Raise
| Yield (row : list string) (rest : row_iter).

(** Observable I/O, in program order. *)
Inductive io_event :=
| EvGet (url : string)
| EvOpenWb (path : string)
| EvWrite (path : string) (data : list byte).

(** The environment of one run: what the server answers to the GET and
    whether [OUT_FILE] can be opened for writing. *)
Record Env := mkEnv { answer : get_outcome; can_open : bool }.

(** The mutable world: files by path, and the I/O performed so far. *)
Record State := mkState {
  fs : gmap string (list byte);
  trace : list io_event
}.

(** ** Exceptions and the I/O monad *)

Inductive result (A : Type) :=
| Ok (a : A)
| Err (e : exn).
Arguments Ok {A} a.
Arguments Err {A} e.

Definition M (A : Type) : Type := Env -> State -> result A * State.

Definition ret {A} (a : A) : M A := fun _ st => (Ok a, st).

Definition bind {A B} (m : M A) (k : A -> M B) : M B :=
  fun env st =>
    match m env st with
    | (Ok a, st') => k a env st'
    | (Err e, st') => (Err e, st')
    end.

Definition raise {A} (e : exn) : M A := fun _ st => (Err e, st).

Definition lift {A} (r : result A) : M A := fun _ st => (r, st).

Definition emit (ev : io_event) : M unit :=
  fun _ st => (Ok tt, mkState (fs st) (trace st ++ [ev])).

Notation "x <- m ;; k" := (bind m (fun x => k))
  (at level 100, m at next level, right associativity).
Notation "m ;;; k" := (bind m (fun _ => k))
  (at level 100, right associativity).

(** ** Constants of the script (lines 8-9) *)

Definition URL : string :=
  "https://simplemaps.com/static/data/world-cities/basic/simplemaps-worldcities-basic.csv".

(** [pathlib.Path(__file__).parent / "GPSInfo" / "cities.plist"]; paths in
    [fs] are relative to the directory of the script. *)
Definition OUT_FILE : string := "GPSInfo/cities.plist".

(** ** The library interface *)

(** The eight bytes every binary property list starts with, the ASCII of
    bplist00: what [fmt=plistlib.FMT_BINARY] makes of the output, whatever
    follows. *)
Definition bplist_magic : list byte := [x62; x70; x6c; x69; x73; x74; x30; x30].

(** The functions the script calls but does not define.  The first
    three laws are what Python guarantees on empty input:
    [b''.decode('utf-8')] is [''], [''.splitlines()] is [[]], and a
    [csv.reader] over no lines is exhausted at once.  The last is the
    format asked for at line 29: plistlib's binary writer starts every
    document with the magic. *)
Class Library := {
  decode_utf8 : list byte -> option string;
  splitlines : string -> list string;
  csv_reader : list string -> row_iter;
  py_float : string -> option float;
  plist_binary : list CityRecord -> list byte;
  decode_utf8_nil : decode_utf8 [] = Some EmptyString;
  splitlines_empty : splitlines EmptyString = [];
  csv_reader_nil : csv_reader [] = Done;
  plist_binary_magic : forall cities, take 8 (plist_binary cities) = bplist_magic
}.

(** ** The script *)

(** Line 11.  One GET; a transport failure raises. *)
Definition requests_get (url : string) : M Response :=
  emit (EvGet url) ;;;
  fun env st =>
    match answer env with
    | GetRaises v => (Err (RequestException v), st)
    | GetReturns res => (Ok res, st)
    end.

(** The statuses for which requests builds an error message: client
    errors, 400 to 499, and server errors, 500 to 599. *)
Definition http_error (status : Z) : bool :=
  (400 <=? status) && (status <? 600).

(** Line 12.  [Response.raise_for_status] of requests raises HTTPError
    for a client or a server error and returns None for every other
    status. *)
Definition raise_for_status (res : Response) : M unit :=
  if http_error (status_code res)
  then raise (HTTPError (status_code res))
  else ret tt.

(** [next(reader)], line 15. *)
Definition next (it : row_iter) : result (list string * row_iter) :=
  match it with
  | Done => Err StopIteration
  | Raise => Err CsvError
  | Yield row rest => Ok (row, rest)
  end.

Section Script.
Context {L : Library}.

(** [res.content.decode('utf-8')], line 14. *)
Definition decode (b : list byte) : result string :=
  match decode_utf8 b with
  | Some s => Ok s
  | None => Err UnicodeDecodeError
  end.

(** [float(s)], lines 24-25. *)
Definition float_ (s : string) : result float :=
  match py_float s with
  | Some x => Ok x
  | None => Err (ValueError (NotAFloat s))
  end.

(** Lines 20-26: the body of the loop, for one row.  The unpacking
    wants exactly nine items; [float(lat)] is evaluated before
    [float(long)]. *)
Definition city_of_row (row : list string) : result CityRecord :=
  match row with
  | [c; _; la; lo; _; _; _; _; _] =>
      match float_ la with
      | Err e => Err e
      | Ok x =>
          match float_ lo with
          | Err e => Err e
          | Ok y => Ok (mkCity c x y)
          end
      end
  | _ =>
      if (length row <? 9)%nat
      then Err (ValueError (NotEnoughValues (length row)))
      else Err (ValueError (TooManyValues (length row)))
  end.

(** Lines 19-26: the loop, appending to [cities]. *)
Fixpoint for_rows (it : row_iter) (cities : list CityRecord)
  : result (list CityRecord) :=
  match it with
  | Done => Ok cities
  | Raise => Err CsvError
  | Yield row rest =>
      match city_of_row row with
      | Err e => Err e
      | Ok c => for_rows rest (cities ++ [c])
      end
  end.

(** Lines 14-26: from the body to [cities]. *)
Definition parse (body : list byte) : result (list CityRecord) :=
  match decode body with
  | Err e => Err e
  | Ok text =>
      let reader := csv_reader (splitlines text) in
      match next reader with
      | Err e => Err e
      | Ok (_, reader) => for_rows reader []
      end
  end.

(** [OUT_FILE.open('wb')], line 28.  The call is made, and recorded,
    either way; when it succeeds the file exists and is empty: created,
    or truncated to no byte; when it fails the files are as before. *)
Definition open_wb (path : string) : M unit :=
  emit (EvOpenWb path) ;;;
  fun env st =>
    if can_open env
    then (Ok tt, mkState (<[path := []]> (fs st)) (trace st))
    else (Err OSError, st).

(** Writing [data] through a handle at position 0 of a file that holds
    [old]: the first bytes are replaced, what [old] has beyond the end of
    [data] stays. *)
Definition write_at_start (data old : list byte) : list byte :=
  data ++ drop (length data) old.

(** [plistlib.dump(cities, out_file, fmt=FMT_BINARY)], line 29: the
    document is written through the handle that line 28 opened, at
    position 0 of whatever the file holds then, and the file is closed on
    leaving the [with] block.  A list of dicts of one str and two floats
    is always serializable.  The write is taken to complete: an I/O error
    between the open and the close, which would leave a partial file, is
    outside the model. *)
Definition plistlib_dump (cities : list CityRecord) (path : string) : M unit :=
  fun _ st =>
    let data := plist_binary cities in
    let old := default [] (fs st !! path) in
    (Ok tt, mkState (<[path := write_at_start data old]> (fs st))
              (trace st ++ [EvWrite path data])).

(** The whole script.  The value returned is the module-level list
    [cities] at exit. *)
Definition update_cities : M (list CityRecord) :=
  res <- requests_get URL ;;
  raise_for_status res ;;;
  cities <- lift (parse (content res)) ;;
  open_wb OUT_FILE ;;;
  plistlib_dump cities OUT_FILE ;;;
  ret cities.

(** *** Vocabulary for the statements *)

(** The rows a reader hands out before it stops or raises. *)
Fixpoint yielded (it : row_iter) : list (list string) :=
  match it with
  | Yield row rest => row :: yielded rest
  | Done | Raise => []
  end.

(** A reader that hands out [rows] and is then exhausted. *)
Definition rows_iter (rows : list (list string)) : row_iter :=
  foldr Yield Done rows.

(** The reader ends by exhaustion, not by raising csv.Error. *)
Fixpoint exhausted (it : row_iter) : bool :=
  match it with
  | Done => true
  | Raise => false
  | Yield _ rest => exhausted rest
  end.

(** A reader that hands out [rows] and then goes on as [rest]. *)
Definition rows_then (rows : list (list string)) (rest : row_iter) : row_iter :=
  foldr Yield rest rows.

(** [float(s)] does not raise. *)
Definition numeric (s : string) : bool :=
  match py_float s with Some _ => true | None => false end.

Definition numeric_at (i : nat) (row : list string) : bool :=
  match row !! i with Some s => numeric s | None => false end.

(** Exactly nine columns, latitude and longitude numeric. *)
Definition well_formed (row : list string) : bool :=
  Nat.eqb (length row) 9 && numeric_at 2 row && numeric_at 3 row.

(** The record [c] is what the loop body builds from [row]. *)
Definition derived_from (row : list string) (c : CityRecord) : Prop :=
  city_of_row row = Ok c.

(** The state once the GET was issued and nothing else happened. *)
Definition after_get (st : State) : State :=
  mkState (fs st) (trace st ++ [EvGet URL]).

(** The state once the open was attempted and failed. *)
Definition after_failed_open (st : State) : State :=
  mkState (fs st) (trace st ++ [EvGet URL; EvOpenWb OUT_FILE]).

End Script.

(** ** An executable library

    One instance of [Library] to run the script on concrete bodies.
    [decode_utf8] and [splitlines] follow Python on a [str] held as its
    UTF-8 bytes; [csv_reader] follows the state machine of CPython's
    [_csv] reader for the default dialect (delimiter [,], quote char,
    doubled quotes, not strict, no escape char); [py_float] covers plain
    decimals [[+-]digits[.digits]] small enough for one correctly rounded
    division, and rejects everything else, which is less than Python's
    [float] accepts (exponents, inf, nan, blanks, underscores).  The byte
    layout of a binary plist is plistlib's own and is not reproduced:
    [plist_binary] is a stand-in that writes a magic and then, per record,
    the name and the two IEEE-754 bit patterns. *)
Module Sample.

(** Strict UTF-8: [need] continuation bytes are still expected, the next
    one within [lo..hi]. *)
Fixpoint utf8_ok (b : list byte) (need : nat) (lo hi : N) : bool :=
  match b with
  | [] => Nat.eqb need 0
  | x :: b' =>
      let n := Byte.to_N x in
      match need with
      | O =>
          if (n <? 0x80)%N then utf8_ok b' 0 0x80 0xBF
          else if ((0xC2 <=? n) && (n <=? 0xDF))%N then utf8_ok b' 1 0x80 0xBF
          else if (n =? 0xE0)%N then utf8_ok b' 2 0xA0 0xBF
          else if (n =? 0xED)%N then utf8_ok b' 2 0x80 0x9F
          else if ((0xE1 <=? n) && (n <=? 0xEF))%N then utf8_ok b' 2 0x80 0xBF
          else if (n =? 0xF0)%N then utf8_ok b' 3 0x90 0xBF
          else if ((0xF1 <=? n) && (n <=? 0xF3))%N then utf8_ok b' 3 0x80 0xBF
          else if (n =? 0xF4)%N then utf8_ok b' 3 0x80 0x8F
          else false
      | S k => ((lo <=? n) && (n <=? hi))%N && utf8_ok b' k 0x80 0xBF
      end
  end.

Definition utf8_decode (b : list byte) : option string :=
  if utf8_ok b 0 0x80 0xBF then Some (String.string_of_list_byte b) else None.

Definition code (c : ascii) : N := N_of_ascii c.

(** One-byte line boundaries of [str.splitlines] other than CR:
    LF, VT, FF, FS, GS, RS. *)
Definition is_break (c : ascii) : bool :=
  let n := code c in
  ((n =? 10) || (n =? 11) || (n =? 12) || (n =? 28) || (n =? 29) || (n =? 30))%N.

Definition snoc (s : string) (c : ascii) : string :=
  (s ++ String c EmptyString)%string.

(** [str.splitlines()]: [cur] is the line being read.  CR LF is one
    boundary; NEL (C2 85), LS (E2 80 A8) and PS (E2 80 A9) are the
    boundaries outside ASCII. *)
Fixpoint split_from (s cur : string) : list string :=
  match s with
  | EmptyString => match cur with EmptyString => [] | _ => [cur] end
  | String c s1 =>
      if (code c =? 13)%N then
        match s1 with
        | String d s2 =>
            if (code d =? 10)%N then cur :: split_from s2 EmptyString
            else cur :: split_from s1 EmptyString
        | EmptyString => cur :: split_from s1 EmptyString
        end
      else if is_break c then cur :: split_from s1 EmptyString
      else
        match s1 with
        | String d s2 =>
            if ((code c =? 0xC2) && (code d =? 0x85))%N
            then cur :: split_from s2 EmptyString
            else
              match s2 with
              | String e s3 =>
                  if ((code c =? 0xE2) && (code d =? 0x80)
                      && ((code e =? 0xA8) || (code e =? 0xA9)))%N
                  then cur :: split_from s3 EmptyString
                  else split_from s1 (snoc cur c)
              | EmptyString => split_from s1 (snoc cur c)
              end
        | EmptyString => split_from s1 (snoc cur c)
        end
  end.

Definition str_splitlines (s : string) : list string := split_from s EmptyString.

(** *** csv.reader *)

Inductive pstate :=
| START_RECORD
| START_FIELD
| IN_FIELD
| IN_QUOTED_FIELD
| QUOTE_IN_QUOTED_FIELD
| EAT_CRNL.

Record parser := mkParser {
  state : pstate;
  fields : list string;
  field : string;
  field_len : N
}.

Definition parse_reset : parser := mkParser START_RECORD [] EmptyString 0.

Definition field_limit : N := 131072.

(** A continuation byte of UTF-8 does not start a character. *)
Definition starts_char (c : ascii) : bool :=
  negb ((0x80 <=? code c) && (code c <=? 0xBF))%N.

Definition parse_add_char (p : parser) (c : ascii) : option parser :=
  if starts_char c && (field_limit <=? field_len p)%N then None
  else Some (mkParser (state p) (fields p) (snoc (field p) c)
               (if starts_char c then field_len p + 1 else field_len p)%N).

Definition parse_save_field (p : parser) : parser :=
  mkParser (state p) (fields p ++ [field p]) EmptyString 0.

Definition set_state (s : pstate) (p : parser) : parser :=
  mkParser s (fields p) (field p) (field_len p).

Definition is_nl (c : ascii) : bool := ((code c =? 10) || (code c =? 13))%N.
Definition is_delim (c : ascii) : bool := (code c =? 44)%N.
Definition is_quote (c : ascii) : bool := (code c =? 34)%N.

(** [parse_process_char]; [None] as the character is the end of a line,
    [None] as the result is csv.Error. *)
Definition parse_process_char (p : parser) (oc : option ascii) : option parser :=
  match state p, oc with
  | START_RECORD, None => Some p
  | (START_RECORD | START_FIELD), Some c =>
      if is_nl c then
        match state p with
        | START_RECORD => Some (set_state EAT_CRNL p)
        | _ => Some (set_state EAT_CRNL (parse_save_field p))
        end
      else if is_quote c then Some (set_state IN_QUOTED_FIELD p)
      else if is_delim c then Some (set_state START_FIELD (parse_save_field p))
      else parse_add_char (set_state IN_FIELD p) c
  | START_FIELD, None => Some (set_state START_RECORD (parse_save_field p))
  | IN_FIELD, None => Some (set_state START_RECORD (parse_save_field p))
  | IN_FIELD, Some c =>
      if is_nl c then Some (set_state EAT_CRNL (parse_save_field p))
      else if is_delim c then Some (set_state START_FIELD (parse_save_field p))
      else parse_add_char p c
  | IN_QUOTED_FIELD, None => Some p
  | IN_QUOTED_FIELD, Some c =>
      if is_quote c then Some (set_state QUOTE_IN_QUOTED_FIELD p)
      else parse_add_char p c
  | QUOTE_IN_QUOTED_FIELD, None =>
      Some (set_state START_RECORD (parse_save_field p))
  | QUOTE_IN_QUOTED_FIELD, Some c =>
      if is_quote c then parse_add_char (set_state IN_QUOTED_FIELD p) c
      else if is_delim c then Some (set_state START_FIELD (parse_save_field p))
      else if is_nl c then Some (set_state EAT_CRNL (parse_save_field p))
      else parse_add_char (set_state IN_FIELD p) c
  | EAT_CRNL, None => Some (set_state START_RECORD p)
  | EAT_CRNL, Some c => if is_nl c then Some p else None
  end.

Fixpoint feed_line (line : string) (p : parser) : option parser :=
  match line with
  | EmptyString => parse_process_char p None
  | String c rest =>
      match parse_process_char p (Some c) with
      | None => None
      | Some p' => feed_line rest p'
      end
  end.

Definition at_start (p : parser) : bool :=
  match state p with START_RECORD => true | _ => false end.

Definition in_quoted (p : parser) : bool :=
  match state p with IN_QUOTED_FIELD => true | _ => false end.

(** [Reader_iternext], unfolded over the lines: a record is complete when
    a line ends in [START_RECORD]; at the end of the input an unfinished
    record is still returned. *)
Fixpoint read_rows (lines : list string) (p : parser) : row_iter :=
  match lines with
  | [] =>
      if negb (field_len p =? 0)%N || in_quoted p
      then Yield (fields (parse_save_field p)) Done
      else Done
  | line :: rest =>
      match feed_line line p with
      | None => Raise
      | Some p' =>
          if at_start p' then Yield (fields p') (read_rows rest parse_reset)
          else read_rows rest p'
      end
  end.

Definition reader (lines : list string) : row_iter :=
  read_rows lines parse_reset.

(** *** float *)

Definition digit (c : ascii) : option Z :=
  if ((48 <=? code c) && (code c <=? 57))%N
  then Some (Z.of_N (code c) - 48) else None.

(** Reads a run of digits: the number read after [acc], how many digits,
    and what is left. *)
Fixpoint digits (s : string) (acc : Z) (n : nat) : Z * nat * string :=
  match s with
  | String c s' =>
      match digit c with
      | Some d => digits s' (10 * acc + d) (S n)
      | None => (acc, n, s)
      end
  | EmptyString => (acc, n, s)
  end.

(** [m / 10^k] in one division, exact operands: the result is the
    nearest binary64, as [float] returns. *)
Definition scaled (m : Z) (k : nat) : option float :=
  if (m <? 2 ^ 53) && (k <=? 18)%nat
  then Some (PrimFloat.of_uint63 (Uint63.of_Z m)
             / PrimFloat.of_uint63 (Uint63.of_Z (10 ^ Z.of_nat k)))%float
  else None.

Definition unsigned (s : string) : option float :=
  let '(i, ni, s1) := digits s 0 0%nat in
  match s1 with
  | EmptyString => if Nat.eqb ni 0 then None else scaled i 0
  | String c s2 =>
      if (code c =? 46)%N then
        let '(m, nf, s3) := digits s2 i 0%nat in
        match s3 with
        | EmptyString => if Nat.eqb (ni + nf) 0 then None else scaled m nf
        | _ => None
        end
      else None
  end.

Definition float_of_string (s : string) : option float :=
  match s with
  | EmptyString => None
  | String c s' =>
      if (code c =? 45)%N then PrimFloat.opp <$> unsigned s'
      else if (code c =? 43)%N then unsigned s'
      else unsigned s
  end.

(** *** The stand-in for the plist writer *)

Definition float_bits (x : float) : Z :=
  let sign (s : bool) := if s then 2 ^ 63 else 0 in
  match Prim2SF x with
  | S754_zero s => sign s
  | S754_infinity s => sign s + 0x7FF * 2 ^ 52
  | S754_nan => 0x7FF8 * 2 ^ 48
  | S754_finite s m e =>
      sign s + (if Z.pos m <? 2 ^ 52 then Z.pos m
                else (e + 1075) * 2 ^ 52 + (Z.pos m - 2 ^ 52))
  end.

Definition byte_of_Z (z : Z) : byte :=
  match Byte.of_N (Z.to_N (z mod 256)) with
  | Some b => b
  | None => x00
  end.

Definition be64 (z : Z) : list byte :=
  map (fun i => byte_of_Z (z / 256 ^ i)) [7; 6; 5; 4; 3; 2; 1; 0].

Definition stand_in_dump (cities : list CityRecord) : list byte :=
  String.list_byte_of_string "bplist00"
  ++ concat (map (fun c =>
       String.list_byte_of_string (city c) ++ [x00]
       ++ be64 (float_bits (lat c)) ++ be64 (float_bits (long c))) cities).

Definition lib : Library := {|
  decode_utf8 := utf8_decode;
  splitlines := str_splitlines;
  csv_reader := reader;
  py_float := float_of_string;
  plist_binary := stand_in_dump;
  decode_utf8_nil := eq_refl;
  splitlines_empty := eq_refl;
  csv_reader_nil := eq_refl;
  plist_binary_magic := fun _ => eq_refl
|}.

(** A body as the bytes of a literal. *)
Definition bytes_of (s : string) : list byte := String.list_byte_of_string s.

Definition LF : string := String (ascii_of_N 10) EmptyString.

(** *** Bodies and worlds to run the script on *)

Definition header_line : string :=
  "city,city_ascii,lat,lng,pop,country,iso2,iso3,province".
Definition tokyo_line : string :=
  "Tokyo,Japan,35.6897,139.6922,37977000,Japan,JP,JPN,Tokyo".
Definition paris_line : string :=
  "Paris,Paris,48.8567,2.3522,11060000,France,FR,FRA,Ile-de-France".
(** Latitude is not a number. *)
Definition north_line : string :=
  "Alert,Alert,north,-62.3481,62,Canada,CA,CAN,Nunavut".
(** Ten columns. *)
Definition wide_line : string :=
  "Tokyo,Japan,35.6897,139.6922,37977000,Japan,JP,JPN,Tokyo,extra".

Definition tokyo_row : list string :=
  ["Tokyo"; "Japan"; "35.6897"; "139.6922"; "37977000"; "Japan"; "JP"; "JPN";
   "Tokyo"].
Definition paris_row : list string :=
  ["Paris"; "Paris"; "48.8567"; "2.3522"; "11060000"; "France"; "FR"; "FRA";
   "Ile-de-France"].
Definition north_row : list string :=
  ["Alert"; "Alert"; "north"; "-62.3481"; "62"; "Canada"; "CA"; "CAN";
   "Nunavut"].
Definition wide_row : list string := tokyo_row ++ ["extra"].
Definition header_row : list string :=
  ["city"; "city_ascii"; "lat"; "lng"; "pop"; "country"; "iso2"; "iso3";
   "province"].

Definition body_of (lines : list string) : list byte :=
  bytes_of (String.concat LF lines).

Definition text_of (lines : list string) : string := String.concat LF lines.

Definition two_cities : list byte :=
  body_of [header_line; tokyo_line; paris_line].

Definition respond (status : Z) (body : list byte) : Response :=
  mkResponse status body.

(** The server answers [status] with [body]; the output file can be
    opened. *)
Definition env_of (status : Z) (body : list byte) : Env :=
  mkEnv (GetReturns (respond status body)) true.

(** A [cities.plist] of a hundred bytes is on disk, more than two
    records take. *)
Definition st_big : State := mkState {[OUT_FILE := replicate 100 x2a]} [].

(** The GET itself fails. *)
Definition env_down : Env := mkEnv (GetRaises false) true.

(** The server answers, but the output file cannot be opened. *)
Definition env_locked (status : Z) (body : list byte) : Env :=
  mkEnv (GetReturns (respond status body)) false.

(** Nothing on disk, nothing done yet. *)
Definition st0 : State := mkState ∅ [].

(** An older [cities.plist] is on disk, next to another file. *)
Definition st_old : State :=
  mkState (<[OUT_FILE := bytes_of "old"]> {["README" := bytes_of "x"]}) [].

End Sample.

(** * Properties *)

Section Facts.
Context {L : Library}.

(** ** The loop body *)

Lemma city_of_row_nine (c a la lo e f g h i : string) :
  city_of_row [c; a; la; lo; e; f; g; h; i] =
  match py_float la, py_float lo with
  | Some x, Some y => Ok (mkCity c x y)
  | None, _ => Err (ValueError (NotAFloat la))
  | Some _, None => Err (ValueError (NotAFloat lo))
  end.
Proof.
  unfold city_of_row, float_.
  destruct (py_float la), (py_float lo); reflexivity.
Qed.

Lemma length_nine {A} (l : list A) :
  length l = 9%nat ->
  exists c a la lo e f g h i, l = [c; a; la; lo; e; f; g; h; i].
Proof.
  intros H.
  do 9 (destruct l as [|? l]; [discriminate H|]).
  destruct l; [|discriminate H].
  repeat eexists.
Qed.

Lemma city_of_row_short (row : list string) :
  (length row < 9)%nat ->
  city_of_row row = Err (ValueError (NotEnoughValues (length row))).
Proof.
  intros H.
  do 9 (destruct row as [|? row]; [reflexivity|]).
  simpl in H. lia.
Qed.

Lemma city_of_row_long (row : list string) :
  (9 < length row)%nat ->
  city_of_row row = Err (ValueError (TooManyValues (length row))).
Proof.
  intros H.
  do 9 (destruct row as [|? row]; [simpl in H; lia|]).
  destruct row; [simpl in H; lia|reflexivity].
Qed.

Lemma city_of_row_ok_length (row : list string) (c : CityRecord) :
  city_of_row row = Ok c -> length row = 9%nat.
Proof.
  intros H.
  destruct (lt_eq_lt_dec (length row) 9) as [[Hlt|Heq]|Hgt]; [|exact Heq|].
  - rewrite city_of_row_short in H by exact Hlt. discriminate.
  - rewrite city_of_row_long in H by exact Hgt. discriminate.
Qed.

Lemma city_of_row_value_error (row : list string) (e : exn) :
  city_of_row row = Err e -> exists why, e = ValueError why.
Proof.
  intros H.
  destruct (lt_eq_lt_dec (length row) 9) as [[Hlt|Heq]|Hgt].
  - rewrite city_of_row_short in H by exact Hlt. inversion H. eauto.
  - destruct (length_nine row Heq) as (c & a & la & lo & r5 & r6 & r7 & r8 & r9 & ->).
    rewrite city_of_row_nine in H.
    destruct (py_float la), (py_float lo); inversion H; eauto.
  - rewrite city_of_row_long in H by exact Hgt. inversion H. eauto.
Qed.

Lemma well_formed_ok (row : list string) :
  well_formed row = true <-> exists c, city_of_row row = Ok c.
Proof.
  split.
  - unfold well_formed. intros H.
    apply andb_prop in H as [H H3]. apply andb_prop in H as [Hlen H2].
    apply Nat.eqb_eq in Hlen.
    destruct (length_nine row Hlen) as (c & a & la & lo & r5 & r6 & r7 & r8 & r9 & ->).
    rewrite city_of_row_nine.
    unfold numeric_at, numeric in H2, H3. simpl in H2, H3.
    destruct (py_float la); [|discriminate].
    destruct (py_float lo); [|discriminate].
    eauto.
  - intros [rec H].
    pose proof (city_of_row_ok_length row rec H) as Hlen.
    destruct (length_nine row Hlen) as (c & a & la & lo & r5 & r6 & r7 & r8 & r9 & ->).
    rewrite city_of_row_nine in H.
    unfold well_formed, numeric_at, numeric. simpl.
    destruct (py_float la); [|discriminate].
    destruct (py_float lo); [|discriminate].
    reflexivity.
Qed.

Lemma not_well_formed_err (row : list string) :
  well_formed row = false <-> exists why, city_of_row row = Err (ValueError why).
Proof.
  split.
  - intros H. destruct (city_of_row row) as [c|e] eqn:E.
    + assert (well_formed row = true) by (apply well_formed_ok; eauto). congruence.
    + destruct (city_of_row_value_error row e E) as [why ->]. eauto.
  - intros [why H]. destruct (well_formed row) eqn:E; [|reflexivity].
    apply well_formed_ok in E as [c E]. congruence.
Qed.

(** ** The loop *)

Lemma for_rows_acc (it : row_iter) (acc : list CityRecord) :
  for_rows it acc =
  match for_rows it [] with
  | Ok cs => Ok (acc ++ cs)
  | Err e => Err e
  end.
Proof.
  revert acc. induction it as [| |row rest IH]; intros acc; simpl.
  - rewrite app_nil_r. reflexivity.
  - reflexivity.
  - destruct (city_of_row row) as [c|e]; [|reflexivity].
    rewrite (IH (acc ++ [c])), (IH [c]).
    destruct (for_rows rest []); [|reflexivity].
    rewrite <- app_assoc. reflexivity.
Qed.

Lemma for_rows_ok (it : row_iter) (cs : list CityRecord) :
  for_rows it [] = Ok cs -> Forall2 derived_from (yielded it) cs.
Proof.
  revert cs. induction it as [| |row rest IH]; intros cs H; simpl in *.
  - inversion H. constructor.
  - discriminate.
  - destruct (city_of_row row) as [c|e] eqn:E; [|discriminate].
    rewrite for_rows_acc in H.
    destruct (for_rows rest []) as [cs'|]; [|discriminate].
    inversion H; subst. constructor; [exact E|]. apply IH. reflexivity.
Qed.

Lemma for_rows_rows_iter (rows : list (list string)) (cs : list CityRecord) :
  Forall2 derived_from rows cs -> for_rows (rows_iter rows) [] = Ok cs.
Proof.
  induction 1 as [|row c rows cs Hrow _ IH]; simpl; [reflexivity|].
  rewrite Hrow, for_rows_acc. fold (rows_iter rows). rewrite IH. reflexivity.
Qed.

Lemma yielded_rows_iter (rows : list (list string)) :
  yielded (rows_iter rows) = rows.
Proof.
  induction rows as [|row rows IH]; simpl; [reflexivity|].
  fold (rows_iter rows). rewrite IH. reflexivity.
Qed.

(** A row the body rejects, anywhere among the yielded rows, stops the
    loop with a ValueError: its own or that of an earlier row. *)
Lemma for_rows_bad_row (it : row_iter) (row : list string) (acc : list CityRecord) :
  row ∈ yielded it -> well_formed row = false ->
  exists why, for_rows it acc = Err (ValueError why).
Proof.
  revert acc. induction it as [| |r rest IH]; intros acc Hin Hbad; simpl in *.
  - inversion Hin.
  - inversion Hin.
  - destruct (city_of_row r) as [c|e] eqn:E.
    + apply elem_of_cons in Hin as [->|Hin].
      * apply not_well_formed_err in Hbad as [why Hbad]. congruence.
      * apply IH; assumption.
    + destruct (city_of_row_value_error r e E) as [why ->]. eauto.
Qed.

Lemma for_rows_value_error (it : row_iter) (acc : list CityRecord) (why : malformed) :
  for_rows it acc = Err (ValueError why) ->
  Exists (fun r => well_formed r = false) (yielded it).
Proof.
  revert acc. induction it as [| |r rest IH]; intros acc H; simpl in *.
  - discriminate.
  - discriminate.
  - destruct (city_of_row r) as [c|e] eqn:E.
    + apply Exists_cons_tl. eapply IH. exact H.
    + apply Exists_cons_hd. apply not_well_formed_err.
      inversion H; subst. eauto.
Qed.

(** ** Opening and writing *)

(** A successful [open_wb] leaves the file empty, whatever it held. *)
Lemma open_wb_truncates (path : string) (env : Env) (st : State) :
  can_open env = true ->
  fs (snd (open_wb path env st)) !! path = Some [].
Proof.
  intros Hopen. cbv [open_wb bind emit]. rewrite Hopen.
  cbn [snd fs]. apply lookup_insert_eq.
Qed.

(** The write alone does not truncate: over a longer file the old tail
    stays.  It is the open that makes the output independent of what the
    file held. *)
Lemma plistlib_dump_keeps_tail (cities : list CityRecord) (path : string)
    (env : Env) (st : State) (old : list byte) :
  fs st !! path = Some old ->
  fs (snd (plistlib_dump cities path env st)) !! path
  = Some (plist_binary cities ++ drop (length (plist_binary cities)) old).
Proof.
  intros Hold. unfold plistlib_dump. cbn [snd fs].
  rewrite Hold, lookup_insert_eq. reflexivity.
Qed.

(** ** The whole run, case by case *)

Lemma update_cities_run (env : Env) (st : State) :
  update_cities env st =
  match answer env with
  | GetRaises v => (Err (RequestException v), after_get st)
  | GetReturns res =>
      if http_error (status_code res)
      then (Err (HTTPError (status_code res)), after_get st)
      else
        match parse (content res) with
        | Err e => (Err e, after_get st)
        | Ok cities =>
            if can_open env
            then (Ok cities,
                  mkState (<[OUT_FILE := plist_binary cities]> (fs st))
                    (trace st ++ [EvGet URL; EvOpenWb OUT_FILE;
                                  EvWrite OUT_FILE (plist_binary cities)]))
            else (Err OSError, after_failed_open st)
        end
  end.
Proof.
  cbv [update_cities bind requests_get raise_for_status lift open_wb
       plistlib_dump emit raise ret after_get after_failed_open].
  destruct (answer env) as [v|res]; [reflexivity|].
  destruct (http_error (status_code res)); [reflexivity|].
  destruct (parse (content res)) as [cities|e]; [|reflexivity].
  destruct (can_open env); cbn [fs trace].
  - rewrite lookup_insert_eq. cbn [default id]. unfold write_at_start.
    rewrite drop_nil, app_nil_r, insert_insert_eq, <- !app_assoc.
    reflexivity.
  - rewrite <- app_assoc. reflexivity.
Qed.

(** Whatever goes wrong, the run stopped after the GET, or at the open
    with OSError; the files are as they were either way. *)
Lemma update_cities_failure (env : Env) (st st' : State) (e : exn) :
  update_cities env st = (Err e, st') ->
  st' = after_get st \/ (e = OSError /\ st' = after_failed_open st).
Proof.
  rewrite update_cities_run.
  destruct (answer env) as [v|res]; [left; congruence|].
  destruct (http_error (status_code res)); [left; congruence|].
  destruct (parse (content res)); [|left; congruence].
  destruct (can_open env); [discriminate|].
  intros H. inversion H. auto.
Qed.

Lemma parse_rows (body : list byte) (text : string) (header : list string)
    (it : row_iter) :
  decode_utf8 body = Some text ->
  csv_reader (splitlines text) = Yield header it ->
  parse body = for_rows it [].
Proof.
  intros Hd Hr. unfold parse, decode. rewrite Hd, Hr. reflexivity.
Qed.

End Facts.

(** * The claims *)

Section Claims.
Context {L : Library}.

(** C1.  When the fetched body decodes and the reader hands out a header
    followed by N rows, each with exactly nine columns and numeric
    latitude and longitude, the run succeeds, [cities] has exactly N
    records, the i-th record is the one built from the i-th data row, and
    the file written holds the serialization of that sequence. *)
Theorem records_in_row_order (env : Env) (st : State) (res : Response)
    (text : string) (header : list string) (rows : list (list string)) :
  answer env = GetReturns res ->
  http_error (status_code res) = false ->
  can_open env = true ->
  decode_utf8 (content res) = Some text ->
  csv_reader (splitlines text) = Yield header (rows_iter rows) ->
  Forall (fun row => well_formed row = true) rows ->
  exists cities : list CityRecord,
    update_cities env st =
      (Ok cities,
       mkState (<[OUT_FILE := plist_binary cities]> (fs st))
         (trace st ++ [EvGet URL; EvOpenWb OUT_FILE;
                       EvWrite OUT_FILE (plist_binary cities)]))
    /\ length cities = length rows
    /\ Forall2 derived_from rows cities.
Proof.
  intros Hans Hst Hopen Hdec Hrd Hwf.
  assert (exists cities, Forall2 derived_from rows cities) as [cities Hc].
  { clear Hrd. induction Hwf as [|row rows Hrow _ [cs IH]].
    - exists []. constructor.
    - apply well_formed_ok in Hrow as [c Hrow].
      exists (c :: cs). constructor; assumption. }
  exists cities. split; [|split].
  - rewrite update_cities_run, Hans, Hst.
    rewrite (parse_rows _ _ _ _ Hdec Hrd), (for_rows_rows_iter _ _ Hc), Hopen.
    reflexivity.
  - symmetry. eapply Forall2_length. exact Hc.
  - exact Hc.
Qed.

(** C2.  For a row with exactly nine columns and numeric latitude and
    longitude, the record built has column 0 as [city], and [float] of
    column 2 and of column 3 as [lat] and [long].  In particular, where
    [float] reads 35.6897 and 139.6922 as those doubles, a row starting
    Tokyo, Japan, 35.6897, 139.6922 gives city Tokyo, lat 35.6897, long
    139.6922. *)
Theorem record_fields (row : list string) :
  well_formed row = true ->
  (exists (c la lo : string) (x y : float),
     row !! 0%nat = Some c /\ row !! 2%nat = Some la /\ row !! 3%nat = Some lo
     /\ py_float la = Some x /\ py_float lo = Some y
     /\ city_of_row row = Ok (mkCity c x y))
  /\ (forall rest : list string,
        row = ["Tokyo"; "Japan"; "35.6897"; "139.6922"] ++ rest ->
        py_float "35.6897" = Some 0x1.1d84816f0068ep+5%float ->
        py_float "139.6922" = Some 0x1.17626809d4952p+7%float ->
        city_of_row row =
          Ok (mkCity "Tokyo" 0x1.1d84816f0068ep+5 0x1.17626809d4952p+7)).
Proof.
  intros Hwf.
  assert (Hlen : length row = 9%nat).
  { apply well_formed_ok in Hwf as [c Hc]. eapply city_of_row_ok_length, Hc. }
  destruct (length_nine row Hlen) as (c & a & la & lo & r5 & r6 & r7 & r8 & r9 & ->).
  split.
  - unfold well_formed, numeric_at, numeric in Hwf. simpl in Hwf.
    destruct (py_float la) as [x|] eqn:Hx; [|discriminate].
    destruct (py_float lo) as [y|] eqn:Hy; [|discriminate].
    exists c, la, lo, x, y. rewrite city_of_row_nine, Hx, Hy.
    repeat split; reflexivity.
  - intros rest Hrow Hla Hlo. inversion Hrow; subst.
    rewrite city_of_row_nine, Hla, Hlo. reflexivity.
Qed.

(** C3, as amended.  Once the header is skipped, the run ends in a
    ValueError exactly when some row the reader hands out does not have
    exactly nine columns or has a latitude or longitude that [float]
    rejects; such a failure aborts the run with the files untouched and
    no I/O but the GET; rows with nine columns and numeric latitude and
    longitude never raise it. *)
Theorem malformed_row_iff (env : Env) (st : State) (res : Response)
    (text : string) (header : list string) (it : row_iter) :
  answer env = GetReturns res ->
  http_error (status_code res) = false ->
  decode_utf8 (content res) = Some text ->
  csv_reader (splitlines text) = Yield header it ->
  ((exists why st', update_cities env st = (Err (ValueError why), st'))
   <-> Exists (fun row => length row <> 9%nat
                          \/ numeric_at 2 row = false
                          \/ numeric_at 3 row = false) (yielded it))
  /\ (forall why st',
        update_cities env st = (Err (ValueError why), st') ->
        st' = after_get st).
Proof.
  intros Hans Hst Hdec Hrd.
  assert (Hbad : forall row,
            (length row <> 9%nat \/ numeric_at 2 row = false
             \/ numeric_at 3 row = false) <-> well_formed row = false).
  { intros row. unfold well_formed.
    rewrite !andb_false_iff, Nat.eqb_neq. tauto. }
  split; [split|].
  - intros (why & st' & Hrun).
    rewrite update_cities_run, Hans, Hst, (parse_rows _ _ _ _ Hdec Hrd) in Hrun.
    destruct (for_rows it []) as [cities|e] eqn:E.
    + destruct (can_open env); discriminate.
    + inversion Hrun; subst.
      apply for_rows_value_error in E.
      eapply Exists_impl; [exact E|]. intros row. apply Hbad.
  - intros Hex. apply Exists_exists in Hex as (row & Hin & Hrow).
    apply Hbad in Hrow.
    destruct (for_rows_bad_row it row [] Hin Hrow) as [why Hwhy].
    exists why, (after_get st).
    rewrite update_cities_run, Hans, Hst, (parse_rows _ _ _ _ Hdec Hrd), Hwhy.
    reflexivity.
  - intros why st' Hrun.
    apply update_cities_failure in Hrun as [Hst'|[Hos _]];
      [exact Hst'|discriminate].
Qed.

(** C4, as amended.  For a response whose status is a client or server
    error, 400 to 599, the run ends at once in HTTPError: one GET was
    issued, nothing was opened or written, the files are as before. *)
Theorem http_error_aborts (env : Env) (st : State) (res : Response) :
  answer env = GetReturns res ->
  400 <= status_code res < 600 ->
  update_cities env st = (Err (HTTPError (status_code res)), after_get st)
  /\ fs (after_get st) = fs st
  /\ trace (after_get st) = trace st ++ [EvGet URL].
Proof.
  intros Hans [Hlo Hhi].
  rewrite update_cities_run, Hans. unfold http_error.
  apply Z.leb_le in Hlo. apply Z.ltb_lt in Hhi. rewrite Hlo, Hhi.
  repeat split.
Qed.

(** C5.  If some row the reader hands out after the header has a
    latitude or longitude that [float] rejects (or has no such column at
    all), the run ends in an
    exception, a ValueError when the status passed the check, and the
    files are as before: the only I/O was the GET, the output file was
    never opened. *)
Theorem non_numeric_aborts (env : Env) (st : State) (res : Response)
    (text : string) (header : list string) (it : row_iter)
    (row : list string) :
  answer env = GetReturns res ->
  decode_utf8 (content res) = Some text ->
  csv_reader (splitlines text) = Yield header it ->
  row ∈ yielded it ->
  numeric_at 2 row = false \/ numeric_at 3 row = false ->
  exists e : exn,
    update_cities env st = (Err e, after_get st)
    /\ fs (after_get st) = fs st
    /\ trace (after_get st) = trace st ++ [EvGet URL]
    /\ (http_error (status_code res) = false ->
        exists why, e = ValueError why).
Proof.
  intros Hans Hdec Hrd Hin Hnum.
  assert (Hbad : well_formed row = false).
  { unfold well_formed. rewrite !andb_false_iff. tauto. }
  destruct (for_rows_bad_row it row [] Hin Hbad) as [why Hwhy].
  rewrite update_cities_run, Hans, (parse_rows _ _ _ _ Hdec Hrd), Hwhy.
  destruct (http_error (status_code res)).
  - eexists. repeat split. discriminate.
  - eexists. repeat split. eauto.
Qed.

(** C6.  The first row the reader hands out is dropped before the loop:
    the result of parsing is that of the loop over the rows after it; on
    success the records are, one for one and in order, those built from
    the rows after the header; and a body that differs only in its
    header row parses to the same result, so nothing of the header
    reaches the output. *)
Theorem header_discarded (body : list byte) (text : string)
    (header : list string) (it : row_iter) :
  decode_utf8 body = Some text ->
  csv_reader (splitlines text) = Yield header it ->
  parse body = for_rows it []
  /\ (forall cities : list CityRecord,
        parse body = Ok cities ->
        Forall2 derived_from (yielded it) cities
        /\ length cities = length (yielded it))
  /\ (forall (body' : list byte) (text' : string) (header' : list string),
        decode_utf8 body' = Some text' ->
        csv_reader (splitlines text') = Yield header' it ->
        parse body' = parse body).
Proof.
  intros Hdec Hrd.
  pose proof (parse_rows _ _ _ _ Hdec Hrd) as Hp.
  split; [exact Hp|split].
  - intros cities Hc. rewrite Hp in Hc. apply for_rows_ok in Hc.
    split; [exact Hc|]. symmetry. eapply Forall2_length. exact Hc.
  - intros body' text' header' Hdec' Hrd'.
    rewrite Hp. eapply parse_rows; eassumption.
Qed.

(** C7.  A run that succeeds leaves at [OUT_FILE] exactly the
    serialization of [cities], a document that starts with the magic of
    a binary property list, and changes no other path; it opened and
    wrote that one path; and started from any other file system, with
    whatever was at [OUT_FILE] before, longer or shorter, it leaves the
    same content there: the open at line 28 emptied the file before the
    write at line 29. *)
Theorem output_overwritten (env : Env) (st st' : State)
    (cities : list CityRecord) :
  update_cities env st = (Ok cities, st') ->
  fs st' = <[OUT_FILE := plist_binary cities]> (fs st)
  /\ take 8 (plist_binary cities) = bplist_magic
  /\ trace st' = trace st ++ [EvGet URL; EvOpenWb OUT_FILE;
                              EvWrite OUT_FILE (plist_binary cities)]
  /\ (forall path : string, path <> OUT_FILE -> fs st' !! path = fs st !! path)
  /\ (forall st2 : State,
        fst (update_cities env st2) = Ok cities
        /\ fs (snd (update_cities env st2)) !! OUT_FILE
           = Some (plist_binary cities)).
Proof.
  intros Hrun. rewrite update_cities_run in Hrun.
  assert (Hall : forall st2, update_cities env st2 =
            (Ok cities,
             mkState (<[OUT_FILE := plist_binary cities]> (fs st2))
               (trace st2 ++ [EvGet URL; EvOpenWb OUT_FILE;
                              EvWrite OUT_FILE (plist_binary cities)]))).
  { intros st2. rewrite update_cities_run.
    destruct (answer env) as [v|res]; [discriminate|].
    destruct (http_error (status_code res));
      [discriminate|].
    destruct (parse (content res)) as [cs|]; [|discriminate].
    destruct (can_open env); [|discriminate].
    inversion Hrun; subst. reflexivity. }
  rewrite <- update_cities_run, Hall in Hrun. inversion Hrun; subst; cbn [fs trace].
  split; [reflexivity|]. split; [apply plist_binary_magic|].
  split; [reflexivity|]. split.
  - intros path Hne. apply lookup_insert_ne. congruence.
  - intros st2. rewrite Hall. split; [reflexivity|].
    cbn [snd fs]. apply lookup_insert_eq.
Qed.


(** C9.  The unpacking at line 20 wants exactly nine items: a row with
    more than nine columns raises ValueError (too many values), and if
    the reader hands out such a row after the header the run ends in an
    exception, a ValueError when the status passed the check, with the
    files as before and no I/O but the GET. *)
Theorem too_many_columns_aborts (env : Env) (st : State) (res : Response)
    (text : string) (header : list string) (it : row_iter)
    (row : list string) :
  answer env = GetReturns res ->
  decode_utf8 (content res) = Some text ->
  csv_reader (splitlines text) = Yield header it ->
  row ∈ yielded it ->
  (9 < length row)%nat ->
  city_of_row row = Err (ValueError (TooManyValues (length row)))
  /\ exists e : exn,
       update_cities env st = (Err e, after_get st)
       /\ fs (after_get st) = fs st
       /\ trace (after_get st) = trace st ++ [EvGet URL]
       /\ (http_error (status_code res) = false ->
           exists why, e = ValueError why).
Proof.
  intros Hans Hdec Hrd Hin Hlen.
  split; [apply city_of_row_long, Hlen|].
  assert (Hbad : well_formed row = false).
  { apply not_well_formed_err. eexists. apply city_of_row_long, Hlen. }
  destruct (for_rows_bad_row it row [] Hin Hbad) as [why Hwhy].
  rewrite update_cities_run, Hans, (parse_rows _ _ _ _ Hdec Hrd), Hwhy.
  destruct (http_error (status_code res)).
  - eexists. repeat split. discriminate.
  - eexists. repeat split. eauto.
Qed.

(** C10.  When the response passed the status check and its body is
    empty, or more generally decodes to a text without any line,
    [next(reader)] raises StopIteration and the run ends there: the
    files are as before and the only I/O was the GET. *)
Theorem empty_body_stops (env : Env) (st : State) (res : Response) :
  answer env = GetReturns res ->
  http_error (status_code res) = false ->
  (content res = [] \/
   exists text, decode_utf8 (content res) = Some text /\ splitlines text = []) ->
  update_cities env st = (Err StopIteration, after_get st)
  /\ fs (after_get st) = fs st
  /\ trace (after_get st) = trace st ++ [EvGet URL].
Proof.
  intros Hans Hst Hbody.
  assert (Hp : parse (content res) = Err StopIteration).
  { unfold parse, decode.
    destruct Hbody as [-> | (text & -> & ->)].
    - rewrite decode_utf8_nil, splitlines_empty, csv_reader_nil. reflexivity.
    - rewrite csv_reader_nil. reflexivity. }
  rewrite update_cities_run, Hans, Hst, Hp. repeat split.
Qed.

End Claims.

(** * The claims on concrete runs *)

Section Runs.
Import Sample.
Local Existing Instance lib.

Local Ltac run := vm_compute; reflexivity.

Lemma records_in_row_order_witness :
  exists cities : list CityRecord,
    update_cities (env_of 200 two_cities) st_old =
      (Ok cities,
       mkState (<[OUT_FILE := plist_binary cities]> (fs st_old))
         (trace st_old ++ [EvGet URL; EvOpenWb OUT_FILE;
                           EvWrite OUT_FILE (plist_binary cities)]))
    /\ length cities = length [tokyo_row; paris_row]
    /\ Forall2 derived_from [tokyo_row; paris_row] cities.
Proof.
  apply (records_in_row_order (env_of 200 two_cities) st_old
           (respond 200 two_cities)
           (text_of [header_line; tokyo_line; paris_line]) header_row
           [tokyo_row; paris_row]).
  - reflexivity.
  - reflexivity.
  - reflexivity.
  - run.
  - run.
  - repeat constructor.
Defined.

Lemma record_fields_witness :
  csv_reader [tokyo_line] = Yield tokyo_row Done
  /\ city_of_row tokyo_row =
       Ok (mkCity "Tokyo" 0x1.1d84816f0068ep+5 0x1.17626809d4952p+7).
Proof.
  split; [run|].
  refine (proj2 (record_fields tokyo_row _)
            ["37977000"; "Japan"; "JP"; "JPN"; "Tokyo"] _ _ _); run.
Defined.

(** C3 as the specification words it fails on a row of ten columns with
    numeric latitude and longitude: the run ends in a ValueError although
    no row has fewer than nine columns or a field [float] rejects. *)
Lemma wide_row_refutes_fewer_than_nine :
  ~ ((exists why st',
        update_cities (env_of 200 (body_of [header_line; wide_line])) st0
          = (Err (ValueError why), st'))
     <-> Exists (fun row => (length row < 9)%nat
                            \/ numeric_at 2 row = false
                            \/ numeric_at 3 row = false)
           (tail (yielded (csv_reader
                             (splitlines
                                (text_of [header_line; wide_line])))))).
Proof.
  intros [Hfails _].
  assert (Hrun : exists why st',
            update_cities (env_of 200 (body_of [header_line; wide_line])) st0
              = (Err (ValueError why), st')).
  { exists (TooManyValues 10), (after_get st0). run. }
  apply Hfails in Hrun.
  change (Exists (fun row => (length row < 9)%nat
                             \/ numeric_at 2 row = false
                             \/ numeric_at 3 row = false) [wide_row]) in Hrun.
  apply Exists_cons in Hrun as [[Hlen|[Hla|Hlo]]|Hnil].
  - vm_compute in Hlen. lia.
  - vm_compute in Hla. discriminate.
  - vm_compute in Hlo. discriminate.
  - inversion Hnil.
Qed.

Lemma malformed_row_iff_witness :
  ((exists why st',
      update_cities (env_of 200 (body_of [header_line; wide_line])) st0
        = (Err (ValueError why), st'))
   <-> Exists (fun row => length row <> 9%nat
                          \/ numeric_at 2 row = false
                          \/ numeric_at 3 row = false)
         (yielded (Yield wide_row Done)))
  /\ (forall why st',
        update_cities (env_of 200 (body_of [header_line; wide_line])) st0
          = (Err (ValueError why), st') ->
        st' = after_get st0).
Proof.
  apply (malformed_row_iff (env_of 200 (body_of [header_line; wide_line])) st0
           (respond 200 (body_of [header_line; wide_line]))
           (text_of [header_line; wide_line]) header_row).
  - reflexivity.
  - reflexivity.
  - run.
  - run.
Defined.

(** C4 as the specification words it fails at status 300: not a 2xx
    status, yet no HTTPError is raised and the file is written. *)
Lemma status_300_refutes_non_2xx :
  ~ (~ 200 <= status_code (respond 300 two_cities) < 300 ->
     exists e,
       update_cities (env_of 300 two_cities) st0 = (Err e, after_get st0))
  /\ fs (snd (update_cities (env_of 300 two_cities) st0)) !! OUT_FILE
     = Some (plist_binary
               [mkCity "Tokyo" 0x1.1d84816f0068ep+5 0x1.17626809d4952p+7;
                mkCity "Paris" 0x1.86da858793dd9p+5 0x1.2d14e3bcd35a8p+1]).
Proof.
  split; [|run].
  intros H. destruct H as [e He]; [simpl; lia|].
  vm_compute in He. discriminate.
Qed.

Lemma http_error_aborts_witness :
  update_cities (env_of 404 two_cities) st_old
    = (Err (HTTPError 404), after_get st_old)
  /\ fs (after_get st_old) = fs st_old
  /\ trace (after_get st_old) = trace st_old ++ [EvGet URL].
Proof.
  apply (http_error_aborts (env_of 404 two_cities) st_old
           (respond 404 two_cities)).
  - reflexivity.
  - simpl. lia.
Defined.

Lemma non_numeric_aborts_witness :
  exists e : exn,
    update_cities
      (env_of 200 (body_of [header_line; tokyo_line; north_line; paris_line]))
      st_old = (Err e, after_get st_old)
    /\ fs (after_get st_old) = fs st_old
    /\ trace (after_get st_old) = trace st_old ++ [EvGet URL]
    /\ (http_error 200 = false -> exists why, e = ValueError why).
Proof.
  apply (non_numeric_aborts
           (env_of 200 (body_of [header_line; tokyo_line; north_line; paris_line]))
           st_old
           (respond 200 (body_of [header_line; tokyo_line; north_line; paris_line]))
           (text_of [header_line; tokyo_line; north_line; paris_line])
           header_row
           (Yield tokyo_row (Yield north_row (Yield paris_row Done)))
           north_row).
  - reflexivity.
  - run.
  - run.
  - apply list_elem_of_further, list_elem_of_here.
  - left. run.
Defined.

Lemma header_discarded_witness :
  parse (body_of ["name,lat"; tokyo_line; paris_line]) = parse two_cities
  /\ parse two_cities =
       Ok [mkCity "Tokyo" 0x1.1d84816f0068ep+5 0x1.17626809d4952p+7;
           mkCity "Paris" 0x1.86da858793dd9p+5 0x1.2d14e3bcd35a8p+1].
Proof.
  destruct (header_discarded two_cities
              (text_of [header_line; tokyo_line; paris_line]) header_row
              (Yield tokyo_row (Yield paris_row Done)))
    as (Hloop & _ & Hsame).
  - run.
  - run.
  - split.
    + apply (Hsame (body_of ["name,lat"; tokyo_line; paris_line])
               (text_of ["name,lat"; tokyo_line; paris_line]) ["name"; "lat"]);
        run.
    + rewrite Hloop. run.
Defined.

Lemma output_overwritten_witness :
  fs (snd (update_cities (env_of 200 two_cities) st_big)) !! OUT_FILE
    = fs (snd (update_cities (env_of 200 two_cities) st0)) !! OUT_FILE
  /\ fs (snd (update_cities (env_of 200 two_cities) st_old)) !! "README"
    = fs st_old !! "README".
Proof.
  destruct (output_overwritten (env_of 200 two_cities) st_old
              (snd (update_cities (env_of 200 two_cities) st_old))
              [mkCity "Tokyo" 0x1.1d84816f0068ep+5 0x1.17626809d4952p+7;
               mkCity "Paris" 0x1.86da858793dd9p+5 0x1.2d14e3bcd35a8p+1])
    as (_ & _ & _ & Hother & Hany).
  - run.
  - split.
    + rewrite (proj2 (Hany st_big)), (proj2 (Hany st0)). reflexivity.
    + apply Hother. discriminate.
Defined.



Lemma too_many_columns_aborts_witness :
  city_of_row wide_row = Err (ValueError (TooManyValues (length wide_row)))
  /\ exists e : exn,
       update_cities
         (env_of 200 (body_of [header_line; tokyo_line; wide_line])) st_old
         = (Err e, after_get st_old)
       /\ fs (after_get st_old) = fs st_old
       /\ trace (after_get st_old) = trace st_old ++ [EvGet URL]
       /\ (http_error 200 = false ->
           exists why, e = ValueError why).
Proof.
  apply (too_many_columns_aborts
           (env_of 200 (body_of [header_line; tokyo_line; wide_line])) st_old
           (respond 200 (body_of [header_line; tokyo_line; wide_line]))
           (text_of [header_line; tokyo_line; wide_line]) header_row
           (Yield tokyo_row (Yield wide_row Done)) wide_row).
  - reflexivity.
  - run.
  - run.
  - apply list_elem_of_further, list_elem_of_here.
  - simpl. lia.
Defined.

Lemma empty_body_stops_witness :
  update_cities (env_of 200 []) st_old = (Err StopIteration, after_get st_old)
  /\ fs (after_get st_old) = fs st_old
  /\ trace (after_get st_old) = trace st_old ++ [EvGet URL].
Proof.
  apply (empty_body_stops (env_of 200 []) st_old (respond 200 [])).
  - reflexivity.
  - reflexivity.
  - left. reflexivity.
Defined.

End Runs.

(** * Further properties of the script *)

Section More.
Context {L : Library}.

(** The loop raises nothing but what the reader and the body raise. *)
Lemma for_rows_error_kinds (it : row_iter) (acc : list CityRecord) (e : exn) :
  for_rows it acc = Err e -> e = CsvError \/ exists why, e = ValueError why.
Proof.
  revert acc. induction it as [| |row rest IH]; intros acc H; simpl in H.
  - discriminate.
  - inversion H. auto.
  - destruct (city_of_row row) as [c|e'] eqn:E.
    + eapply IH, H.
    + inversion H; subst. right. eapply city_of_row_value_error, E.
Qed.

Lemma parse_error_kinds (body : list byte) (e : exn) :
  parse body = Err e ->
  e = UnicodeDecodeError \/ e = StopIteration \/ e = CsvError
  \/ exists why, e = ValueError why.
Proof.
  unfold parse, decode. intros H.
  destruct (decode_utf8 body) as [text|]; [|inversion H; auto].
  destruct (csv_reader (splitlines text)) as [| |header it]; simpl in H.
  - inversion H. auto.
  - inversion H. auto.
  - apply for_rows_error_kinds in H. tauto.
Qed.

Lemma for_rows_ok_iff (it : row_iter) (acc : list CityRecord) :
  (exists cs, for_rows it acc = Ok cs)
  <-> exhausted it = true
      /\ Forall (fun row => well_formed row = true) (yielded it).
Proof.
  revert acc. induction it as [| |row rest IH]; intros acc; simpl.
  - split; [intros _; split; [reflexivity|constructor]|eauto].
  - split; [intros [cs H]; discriminate|intros [H _]; discriminate].
  - destruct (city_of_row row) as [c|e] eqn:E.
    + rewrite IH. split; intros [Hex Hall]; split; try assumption.
      * constructor; [apply well_formed_ok; eauto|assumption].
      * inversion Hall; assumption.
    + split.
      * intros [cs H]. discriminate.
      * intros [_ Hall]. inversion Hall as [|? ? Hrow _]; subst.
        apply well_formed_ok in Hrow as [c Hc]. congruence.
Qed.

Lemma for_rows_rows_then (good : list (list string)) (rest : row_iter)
    (acc : list CityRecord) :
  Forall (fun row => well_formed row = true) good ->
  exists cs, length cs = length good
             /\ for_rows (rows_then good rest) acc = for_rows rest (acc ++ cs).
Proof.
  intros Hgood. revert acc.
  induction Hgood as [|row good Hrow _ IH]; intros acc; simpl.
  - exists []. rewrite app_nil_r. auto.
  - apply well_formed_ok in Hrow as [c Hc]. rewrite Hc.
    destruct (IH (acc ++ [c])) as (cs & Hlen & Heq).
    exists (c :: cs). split; [simpl; congruence|].
    fold (rows_then good rest). rewrite Heq, <- app_assoc. reflexivity.
Qed.

(** X1.  A run that ends in an exception raised at any of lines 11 to
    28, up to and including the open, leaves every file as it was: an
    existing [cities.plist] is not lost to such a failed update.  (A
    failure of the write itself, after the open, is outside the model.) *)
Theorem failed_run_keeps_files (env : Env) (st st' : State) (e : exn) :
  update_cities env st = (Err e, st') ->
  fs st' = fs st
  /\ fs st' !! OUT_FILE = fs st !! OUT_FILE.
Proof.
  intros H.
  apply update_cities_failure in H as [->|[_ ->]]; split; reflexivity.
Qed.

(** X2.  No run, failed or not, creates, changes or removes a file
    other than [OUT_FILE]. *)
Theorem other_files_untouched (env : Env) (st : State) (path : string) :
  path <> OUT_FILE ->
  fs (snd (update_cities env st)) !! path = fs st !! path.
Proof.
  intros Hne. rewrite update_cities_run.
  destruct (answer env) as [|res]; [reflexivity|].
  destruct (http_error (status_code res)); [reflexivity|].
  destruct (parse (content res)) as [cities|e]; [|reflexivity].
  destruct (can_open env); [|reflexivity].
  cbn [snd fs]. apply lookup_insert_ne. congruence.
Qed.

(** X3.  The calls a run makes, in order.  Every run issues exactly
    one GET of [URL], before anything else.  [OUT_FILE] is opened, at
    most once, only after the response passed the status check and every
    row was parsed; the only write follows that open and carries the
    serialization of the records parsed; a run that succeeds made all
    three calls. *)
Theorem io_in_program_order (env : Env) (st : State) :
  exists evs : list io_event,
    trace (snd (update_cities env st)) = trace st ++ EvGet URL :: evs
    /\ (evs = []
        \/ exists res cities,
             answer env = GetReturns res
             /\ http_error (status_code res) = false
             /\ parse (content res) = Ok cities
             /\ (evs = [EvOpenWb OUT_FILE]
                 \/ evs = [EvOpenWb OUT_FILE;
                           EvWrite OUT_FILE (plist_binary cities)]))
    /\ (forall cities : list CityRecord,
          fst (update_cities env st) = Ok cities ->
          evs = [EvOpenWb OUT_FILE; EvWrite OUT_FILE (plist_binary cities)]).
Proof.
  rewrite update_cities_run.
  destruct (answer env) as [v|res];
    [exists []; repeat split; [auto|discriminate]|].
  destruct (http_error (status_code res)) eqn:Hst;
    [exists []; repeat split; [auto|discriminate]|].
  destruct (parse (content res)) as [cs|e] eqn:Hp;
    [|exists []; repeat split; [auto|discriminate]].
  destruct (can_open env).
  - exists [EvOpenWb OUT_FILE; EvWrite OUT_FILE (plist_binary cs)].
    repeat split.
    + right. exists res, cs. auto.
    + intros cities Hc. inversion Hc. reflexivity.
  - exists [EvOpenWb OUT_FILE]. repeat split.
    + right. exists res, cs. auto.
    + discriminate.
Qed.

(** X4.  What a successful run needed: the GET returned a response
    whose status is not a client or server error, the body decoded, the
    reader handed out a first row, every row after it had nine columns
    with numeric latitude and longitude, the reader ended without
    csv.Error, and the output file could be opened. *)
Theorem success_requires (env : Env) (st st' : State)
    (cities : list CityRecord) :
  update_cities env st = (Ok cities, st') ->
  exists res text header it,
    answer env = GetReturns res
    /\ http_error (status_code res) = false
    /\ decode_utf8 (content res) = Some text
    /\ csv_reader (splitlines text) = Yield header it
    /\ exhausted it = true
    /\ Forall (fun row => well_formed row = true) (yielded it)
    /\ Forall2 derived_from (yielded it) cities
    /\ can_open env = true.
Proof.
  rewrite update_cities_run. intros H.
  destruct (answer env) as [v|res]; [discriminate|].
  destruct (http_error (status_code res)) eqn:Hst; [discriminate|].
  destruct (parse (content res)) as [cs|] eqn:Hp; [|discriminate].
  destruct (can_open env); [|discriminate].
  inversion H; subst. clear H.
  unfold parse, decode in Hp.
  destruct (decode_utf8 (content res)) as [text|] eqn:Hd; [|discriminate].
  destruct (csv_reader (splitlines text)) as [| |header it] eqn:Hr;
    simpl in Hp; try discriminate.
  exists res, text, header, it.
  destruct (proj1 (for_rows_ok_iff it [])) as [Hex Hall]; [eauto|].
  pose proof (for_rows_ok it cities Hp).
  auto 10.
Qed.

(** X5.  The first row the body rejects decides the outcome: after any
    number of good rows, its exception is the one the run ends with, and
    what the reader would have handed out afterwards, more bad rows or a
    csv.Error, is never looked at. *)
Theorem first_bad_row_wins (env : Env) (st : State) (res : Response)
    (text : string) (header : list string) (good : list (list string))
    (bad : list string) (rest : row_iter) (e : exn) :
  answer env = GetReturns res ->
  http_error (status_code res) = false ->
  decode_utf8 (content res) = Some text ->
  csv_reader (splitlines text) = Yield header (rows_then good (Yield bad rest)) ->
  Forall (fun row => well_formed row = true) good ->
  city_of_row bad = Err e ->
  update_cities env st = (Err e, after_get st).
Proof.
  intros Hans Hst Hd Hr Hgood Hbad.
  rewrite update_cities_run, Hans, Hst, (parse_rows _ _ _ _ Hd Hr).
  destruct (for_rows_rows_then good (Yield bad rest) [] Hgood) as (cs & _ & ->).
  simpl. rewrite Hbad. reflexivity.
Qed.

(** X6.  What a row is rejected for.  The count of columns is checked
    first: fewer than nine, or more, raises the unpacking ValueError with
    the count, and no field is converted.  With nine columns the
    latitude is converted first, so a bad latitude is reported whatever
    the longitude is, and a bad longitude only behind a good latitude. *)
Theorem row_error_precedence (row : list string) :
  ((length row < 9)%nat ->
   city_of_row row = Err (ValueError (NotEnoughValues (length row))))
  /\ ((9 < length row)%nat ->
      city_of_row row = Err (ValueError (TooManyValues (length row))))
  /\ (forall la : string,
        length row = 9%nat -> row !! 2%nat = Some la -> py_float la = None ->
        city_of_row row = Err (ValueError (NotAFloat la)))
  /\ (forall (la lo : string) (x : float),
        length row = 9%nat -> row !! 2%nat = Some la -> row !! 3%nat = Some lo ->
        py_float la = Some x -> py_float lo = None ->
        city_of_row row = Err (ValueError (NotAFloat lo))).
Proof.
  split; [apply city_of_row_short|].
  split; [apply city_of_row_long|].
  split.
  - intros la Hlen H2 Hla.
    destruct (length_nine row Hlen) as (c & a & la' & lo & r5 & r6 & r7 & r8 & r9 & ->).
    inversion H2; subst. rewrite city_of_row_nine, Hla. reflexivity.
  - intros la lo x Hlen H2 H3 Hla Hlo.
    destruct (length_nine row Hlen) as (c & a & la' & lo' & r5 & r6 & r7 & r8 & r9 & ->).
    inversion H2; inversion H3; subst.
    rewrite city_of_row_nine, Hla, Hlo. reflexivity.
Qed.

(** X7.  When the reader raises csv.Error after handing out good rows,
    the loop ends in that csv.Error: the records built so far are
    dropped with it, none is returned. *)
Theorem csv_error_drops_records (good : list (list string))
    (acc : list CityRecord) :
  Forall (fun row => well_formed row = true) good ->
  for_rows (rows_then good Raise) acc = Err CsvError.
Proof.
  intros Hgood.
  destruct (for_rows_rows_then good Raise acc Hgood) as (cs & _ & ->).
  reflexivity.
Qed.

(** X8.  What an [except OSError] around the script would catch: the
    failures of the network, which requests raises as subclasses of
    OSError, and the failure to open the output file, never a failure of
    parsing.  A run that ends in an instance of OSError either failed in
    the fetch or had parsed the whole body; and each of a GET that
    raises, a 4xx or 5xx status, and an output file that cannot be opened
    after a good parse ends the run in an instance of OSError with the
    files as before. *)
Theorem os_error_sources (env : Env) (st : State) :
  (forall e st',
     update_cities env st = (Err e, st') ->
     instance_of e ClsOSError = true ->
     (exists v, answer env = GetRaises v)
     \/ exists res,
          answer env = GetReturns res
          /\ (http_error (status_code res) = true
              \/ exists cities, parse (content res) = Ok cities))
  /\ ((exists v, answer env = GetRaises v)
      \/ (exists res,
            answer env = GetReturns res
            /\ (http_error (status_code res) = true
                \/ (can_open env = false
                    /\ exists cities, parse (content res) = Ok cities))) ->
      exists e st',
        update_cities env st = (Err e, st')
        /\ instance_of e ClsOSError = true
        /\ fs st' = fs st).
Proof.
  rewrite update_cities_run. split.
  - intros e st' H He.
    destruct (answer env) as [v|res]; [eauto|].
    right. exists res. split; [reflexivity|].
    destruct (http_error (status_code res)); [auto|].
    destruct (parse (content res)) as [cities|e'] eqn:Hp; [eauto|].
    inversion H; subst.
    apply parse_error_kinds in Hp as [->|[->|[->|[why ->]]]]; discriminate.
  - intros [[v ->]|(res & -> & [->|[-> [cities ->]]])].
    + eauto.
    + eauto.
    + destruct (http_error (status_code res)); eauto.
Qed.

(** X9.  What the exception says about the stage that failed.  An
    instance of RequestException: the fetch failed, the GET raised or the
    status was 4xx or 5xx.  UnicodeDecodeError: the response passed the
    status check and its body is not UTF-8.  StopIteration: the body
    decoded and the reader had no row at all to skip; the loop never lets
    one out, so a body with a header and no data row is not an error.  An
    instance of ValueError: a GET that raised one of the few request
    errors that are ValueErrors, an undecodable body, or a row the loop
    body rejected. *)
Theorem exception_tells_stage (env : Env) (st : State) :
  ((exists e st', update_cities env st = (Err e, st')
                  /\ instance_of e ClsRequestException = true)
   <-> (exists v, answer env = GetRaises v)
       \/ exists res, answer env = GetReturns res
                      /\ http_error (status_code res) = true)
  /\ ((exists st', update_cities env st = (Err UnicodeDecodeError, st'))
      <-> exists res, answer env = GetReturns res
                      /\ http_error (status_code res) = false
                      /\ decode_utf8 (content res) = None)
  /\ ((exists st', update_cities env st = (Err StopIteration, st'))
      <-> exists res text, answer env = GetReturns res
                           /\ http_error (status_code res) = false
                           /\ decode_utf8 (content res) = Some text
                           /\ csv_reader (splitlines text) = Done)
  /\ ((exists e st', update_cities env st = (Err e, st')
                     /\ instance_of e ClsValueError = true)
      <-> answer env = GetRaises true
          \/ exists res, answer env = GetReturns res
                         /\ http_error (status_code res) = false
                         /\ (decode_utf8 (content res) = None
                             \/ exists why,
                                  parse (content res) = Err (ValueError why))).
Proof.
  rewrite update_cities_run. split; [|split; [|split]]; split.
  - intros (e & st' & H & He).
    destruct (answer env) as [v|res]; [eauto|].
    right. exists res. split; [reflexivity|].
    destruct (http_error (status_code res)); [reflexivity|].
    destruct (parse (content res)) as [cities|e'] eqn:Hp.
    + destruct (can_open env); inversion H; subst; discriminate.
    + inversion H; subst.
      apply parse_error_kinds in Hp as [->|[->|[->|[why ->]]]]; discriminate.
  - intros [[v ->]|(res & -> & ->)]; eauto.
  - intros (st' & H).
    destruct (answer env) as [v|res]; [discriminate|].
    destruct (http_error (status_code res)) eqn:Hst; [discriminate|].
    exists res. split; [reflexivity|split; [exact Hst|]].
    unfold parse, decode in H.
    destruct (decode_utf8 (content res)) as [text|] eqn:Hd; [|reflexivity].
    destruct (csv_reader (splitlines text)) as [| |header it] eqn:Hr;
      simpl in H; try discriminate.
    destruct (for_rows it []) as [cities|e] eqn:Hl.
    + destruct (can_open env); discriminate.
    + inversion H; subst.
      apply for_rows_error_kinds in Hl as [?|[? ?]]; discriminate.
  - intros (res & -> & -> & Hd). unfold parse, decode. rewrite Hd. eauto.
  - intros (st' & H).
    destruct (answer env) as [v|res]; [discriminate|].
    destruct (http_error (status_code res)) eqn:Hst; [discriminate|].
    unfold parse, decode in H.
    destruct (decode_utf8 (content res)) as [text|] eqn:Hd; [|discriminate].
    exists res, text. repeat split; [exact Hst|exact Hd|].
    destruct (csv_reader (splitlines text)) as [| |header it] eqn:Hr;
      simpl in H; [reflexivity|discriminate|].
    destruct (for_rows it []) as [cities|e] eqn:Hl.
    + destruct (can_open env); discriminate.
    + inversion H; subst.
      apply for_rows_error_kinds in Hl as [?|[? ?]]; discriminate.
  - intros (res & text & -> & -> & Hd & Hr).
    unfold parse, decode. rewrite Hd, Hr. simpl. eauto.
  - intros (e & st' & H & He).
    destruct (answer env) as [v|res].
    + inversion H; subst. simpl in He. subst. auto.
    + right. exists res. split; [reflexivity|].
      destruct (http_error (status_code res)) eqn:Hst;
        [inversion H; subst; discriminate|].
      split; [reflexivity|].
      destruct (parse (content res)) as [cities|e'] eqn:Hp.
      * destruct (can_open env); inversion H; subst; discriminate.
      * inversion H; subst.
        unfold parse, decode in Hp.
        destruct (decode_utf8 (content res)) as [text|] eqn:Hd; [|auto].
        right.
        destruct (csv_reader (splitlines text)) as [| |header it];
          simpl in Hp.
        -- inversion Hp; subst. discriminate He.
        -- inversion Hp; subst. discriminate He.
        -- apply for_rows_error_kinds in Hp as [->|[why ->]];
             [discriminate He|eauto].
  - intros [->|(res & -> & -> & [Hd|[why Hp]])].
    + exists (RequestException true). eauto.
    + unfold parse, decode. rewrite Hd.
      exists UnicodeDecodeError. eauto.
    + rewrite Hp. exists (ValueError why). eauto.
Qed.

End More.

(** * The further properties on concrete runs *)

Section MoreRuns.
Import Sample.
Local Existing Instance lib.

Local Ltac run := vm_compute; reflexivity.

Lemma failed_run_keeps_files_witness :
  fs (snd (update_cities (env_locked 200 two_cities) st_old)) = fs st_old
  /\ fs (snd (update_cities (env_locked 200 two_cities) st_old)) !! OUT_FILE
     = fs st_old !! OUT_FILE.
Proof.
  apply (failed_run_keeps_files (env_locked 200 two_cities) st_old
           (snd (update_cities (env_locked 200 two_cities) st_old)) OSError).
  run.
Defined.

Lemma other_files_untouched_witness :
  fs (snd (update_cities (env_of 200 two_cities) st_old)) !! "README"
  = fs st_old !! "README".
Proof.
  apply (other_files_untouched (env_of 200 two_cities) st_old "README").
  discriminate.
Defined.

Lemma success_requires_witness :
  exists res text header it,
    answer (env_of 200 two_cities) = GetReturns res
    /\ http_error (status_code res) = false
    /\ decode_utf8 (content res) = Some text
    /\ csv_reader (splitlines text) = Yield header it
    /\ exhausted it = true
    /\ Forall (fun row => well_formed row = true) (yielded it)
    /\ Forall2 derived_from (yielded it)
         [mkCity "Tokyo" 0x1.1d84816f0068ep+5 0x1.17626809d4952p+7;
          mkCity "Paris" 0x1.86da858793dd9p+5 0x1.2d14e3bcd35a8p+1]
    /\ can_open (env_of 200 two_cities) = true.
Proof.
  apply (success_requires (env_of 200 two_cities) st_big
           (snd (update_cities (env_of 200 two_cities) st_big))).
  run.
Defined.

Lemma first_bad_row_wins_witness :
  update_cities
    (env_of 200
       (body_of [header_line; tokyo_line; north_line; wide_line; paris_line]))
    st_old
  = (Err (ValueError (NotAFloat "north")), after_get st_old).
Proof.
  apply (first_bad_row_wins
           (env_of 200
              (body_of [header_line; tokyo_line; north_line; wide_line;
                        paris_line]))
           st_old
           (respond 200
              (body_of [header_line; tokyo_line; north_line; wide_line;
                        paris_line]))
           (text_of [header_line; tokyo_line; north_line; wide_line;
                     paris_line])
           header_row [tokyo_row] north_row
           (Yield wide_row (Yield paris_row Done))).
  - reflexivity.
  - reflexivity.
  - run.
  - run.
  - repeat constructor.
  - run.
Defined.

Lemma row_error_precedence_witness :
  city_of_row ["Alert"; "Alert"] = Err (ValueError (NotEnoughValues 2))
  /\ city_of_row
       ["Alert"; "Alert"; "north"; "west"; "62"; "Canada"; "CA"; "CAN";
        "Nunavut"]
     = Err (ValueError (NotAFloat "north"))
  /\ city_of_row
       ["Alert"; "Alert"; "82.5018"; "west"; "62"; "Canada"; "CA"; "CAN";
        "Nunavut"]
     = Err (ValueError (NotAFloat "west")).
Proof.
  split; [|split].
  - apply (proj1 (row_error_precedence ["Alert"; "Alert"])). simpl. lia.
  - apply (proj1 (proj2 (proj2 (row_error_precedence
             ["Alert"; "Alert"; "north"; "west"; "62"; "Canada"; "CA"; "CAN";
              "Nunavut"]))) "north"); reflexivity.
  - apply (proj2 (proj2 (proj2 (row_error_precedence
             ["Alert"; "Alert"; "82.5018"; "west"; "62"; "Canada"; "CA";
              "CAN"; "Nunavut"]))) "82.5018" "west" 0x1.4a01d7dbf488p+6%float);
      run.
Defined.

Lemma csv_error_drops_records_witness :
  for_rows (rows_then [tokyo_row; paris_row] Raise) [] = Err CsvError.
Proof.
  apply (csv_error_drops_records [tokyo_row; paris_row] []).
  repeat constructor.
Defined.

End MoreRuns.
